(** * The multi-query retrieval notebook: ingestion metadata, splitter
      parameters and context assembly

    The notebook [lab-chatbot-with-multi-query-retriever.ipynb] contributes
    four pieces of code of its own: the callback [metadata_func] that fills a
    passage's metadata from a JSON record, the parameters of the text
    splitter, the template [LLM_DOCUMENT_PROMPT], and [_combine_documents],
    which turns the retrieved passages into the context of the final prompt.
    Everything else (query expansion, retrieval, merging of the results,
    generation) is a call into the retrieval framework.  This file embeds
    those four pieces and proves what they do. *)

From Stdlib Require Import Ascii.
From stdpp Require Import gmap strings list fin_maps pretty.

#[local] Set Warnings "-register-all".
Local Open Scope string_scope.

(** ** Python values

    What [json.load] produces and what a [Document]'s metadata holds: [None],
    booleans, integers, floats, strings, lists and objects.  A float is kept
    by its shape only (a finite dyadic [m * 2^e], an infinity, or NaN): the
    notebook never computes with one, it only tests its truth value. *)

Inductive float_val : Type :=
| FNum (m e : Z)
| FInf (negative : bool)
| FNaN.

Inductive value : Type :=
| VNone
| VBool (b : bool)
| VInt (n : Z)
| VFloat (f : float_val)
| VStr (s : string)
| VList (items : list value)
| VDict (entries : list (string * value)).

(** Python's truth value of an object, as [if x] and [x and y] test it. *)
Definition truthy (v : value) : bool :=
  match v with
  | VNone => false
  | VBool b => b
  | VInt n => negb (n =? 0)%Z
  | VFloat (FNum m _) => negb (m =? 0)%Z
  | VFloat _ => true
  | VStr s => match s with EmptyString => false | String _ _ => true end
  | VList items => match items with [] => false | _ :: _ => true end
  | VDict entries => match entries with [] => false | _ :: _ => true end
  end.

(** [v == lit] for a string literal [lit]: only a string compares equal to a
    string. *)
Definition eq_str (v : value) (lit : string) : bool :=
  match v with
  | VStr s => bool_decide (s = lit)
  | _ => false
  end.

(** [d.get(key, default)]; [d.get(key)] is [get d key VNone]. *)
Definition get (d : gmap string value) (key : string) (dflt : value) : value :=
  default dflt (d !! key).

(** ** Documents, exceptions and results

    A passage is the framework's [Document]: its text and a metadata
    dictionary, the one [metadata_func] filled at ingestion. *)
Record Document : Type := {
  page_content : string;
  metadata : gmap string value
}.

Inductive exception : Type :=
| ValueError (missing : list string)
| KeyError (key : string).

(** A call either returns or raises. *)
Inductive outcome (A : Type) : Type :=
| Returned (a : A)
| Raised (e : exception).
Arguments Returned {A} a.
Arguments Raised {A} e.

#[export] Instance outcome_ret : MRet outcome := λ A a, Returned a.
#[export] Instance outcome_bind : MBind outcome := λ A B k m,
  match m with
  | Returned a => k a
  | Raised e => Raised e
  end.

(** ** Ingestion: the metadata callback (cell 17, lines 135-148)

    The callback writes into the dictionary it is handed and returns it; the
    mutation is modelled by passing the dictionary through. *)
Definition metadata_func (record metadata : gmap string value) : gmap string value :=
  let metadata := <["name" := get record "name" (VStr "Unknown Name")]> metadata in
  let metadata := <["url" := get record "url" (VStr "N/A")]> metadata in
  let metadata := <["category" := get record "category" (VStr "Uncategorized")]> metadata in
  let updated_at := get record "updated_at" VNone in
  if truthy updated_at && negb (eq_str updated_at "N/A")
  then <["updated_at" := updated_at]> metadata
  else <["updated_at" := VStr "1970-01-01"]> metadata.

(** ** Ingestion: the splitter's parameters (lines 160-162 and 330)

    [RecursiveCharacterTextSplitter.from_tiktoken_encoder] belongs to the
    framework; the notebook only chooses its two keyword arguments, which is
    all that is kept of the splitter here. *)
Record TextSplitter : Type := from_tiktoken_encoder {
  chunk_size : Z;
  chunk_overlap : Z
}.

(** The first pipeline (workplace documents) and the second iteration of the
    lab (scraped pages) each build a splitter of their own. *)
Module Workplace.
Definition text_splitter : TextSplitter :=
  from_tiktoken_encoder 808 400.
End Workplace.

Module Barefoot.
Definition text_splitter : TextSplitter :=
  from_tiktoken_encoder 808 400.
End Barefoot.

(** ** Ingestion: naming the scraped passages (lines 341-342)

    The second pipeline loads without a metadata callback and writes the
    name [document_<i>] into every passage of the [i]-th page by hand. *)
Definition name_documents (i : nat) (loaded_docs : list Document) : list Document :=
  (λ doc, {| page_content := page_content doc;
             metadata := <["name" := VStr ("document_" +:+ pretty i)]> (metadata doc) |})
  <$> loaded_docs.

(** ** Prompt templates *)

(** Modelled from the spec: [PromptTemplate] is the framework's, not under
    src/.  The spec has each passage rendered with a fixed template carrying
    its source name and text; the template of lines 245-252 is a Python
    format string, literal text interleaved with replacement fields in
    braces. *)
Inductive piece : Type :=
| Literal (text : string)
| Field (name : string).

Definition PromptTemplate : Type := list piece.

Inductive scanning : Type :=
| InText (text : string)
| InField (name : string).

Definition push_literal (text : string) (done : list piece) : list piece :=
  match text with
  | EmptyString => done
  | String _ _ => Literal text :: done
  end.

Definition snoc_char (s : string) (c : ascii) : string := s +:+ String c "".

(** Modelled from the spec: the framework's reading of a template, one pass
    over its characters; [done] holds the pieces read so far, last first.
    An unclosed field or a stray closing brace is the [ValueError] Python's
    formatter raises.  Brace escapes and format specifiers do not occur in
    the notebook's templates and are left out. *)
Fixpoint scan_template (s : string) (st : scanning) (done : list piece)
  : outcome PromptTemplate :=
  match s, st with
  | EmptyString, InText text => Returned (rev (push_literal text done))
  | EmptyString, InField _ => Raised (ValueError [])
  | String c s', InText text =>
      if Ascii.eqb c "{"%char then scan_template s' (InField "") (push_literal text done)
      else if Ascii.eqb c "}"%char then Raised (ValueError [])
      else scan_template s' (InText (snoc_char text c)) done
  | String c s', InField name =>
      if Ascii.eqb c "}"%char then scan_template s' (InText "") (Field name :: done)
      else scan_template s' (InField (snoc_char name c)) done
  end.

(** Modelled from the spec: [PromptTemplate.from_template], the framework's
    constructor the notebook calls at line 245. *)
Definition from_template (template : string) : outcome PromptTemplate :=
  scan_template template (InText "") [].

Definition input_variables (prompt : PromptTemplate) : list string :=
  omap (λ p, match p with Field name => Some name | Literal _ => None end) prompt.

(** The line feed, and the notebook's document template (lines 245-252): the
    text between the triple quotes, line by line. *)
Definition LF : string := String "010"%char "".

Definition LLM_DOCUMENT_TEMPLATE : string :=
  LF +:+ "---" +:+ LF
     +:+ "SOURCE: {name}" +:+ LF
     +:+ "{page_content}" +:+ LF
     +:+ "---" +:+ LF.

(** [LLM_DOCUMENT_PROMPT = PromptTemplate.from_template(...)]; the template
    is well formed ([LLM_DOCUMENT_PROMPT_parsed] below), so the second branch
    is never taken. *)
Definition LLM_DOCUMENT_PROMPT : PromptTemplate :=
  match from_template LLM_DOCUMENT_TEMPLATE with
  | Returned prompt => prompt
  | Raised _ => []
  end.

(** The default of [_combine_documents]'s third argument, two line feeds. *)
Definition DOCUMENT_SEPARATOR : string := LF +:+ LF.

Section Formatting.
(** Python's built-in [str], which a replacement field applies to the
    value it is given.  Only what it does to a string matters here (it
    returns it unchanged); its printing of numbers and containers is left
    open. *)
Variable str : value → string.

(** Modelled from the spec: [prompt.format], the framework's, applied to the
    variables as keyword arguments: the literal text as it stands, every
    field replaced by the printed value of its variable. *)
Fixpoint format (prompt : PromptTemplate) (kwargs : gmap string value)
  : outcome string :=
  match prompt with
  | [] => Returned ""
  | Literal text :: prompt' =>
      rest ← format prompt' kwargs; Returned (text +:+ rest)
  | Field name :: prompt' =>
      match kwargs !! name with
      | Some v => rest ← format prompt' kwargs; Returned (str v +:+ rest)
      | None => Raised (KeyError name)
      end
  end.

(** The variables a document offers the template: its metadata, and its
    text under [page_content].  The framework builds them as one dictionary
    display with the metadata unpacked last, so a metadata entry named
    [page_content] would take the text's place. *)
Definition base_info (doc : Document) : gmap string value :=
  metadata doc ∪ {[ "page_content" := VStr (page_content doc) ]}.

Definition is_missing (info : gmap string value) (name : string) : bool :=
  match info !! name with
  | Some _ => false
  | None => true
  end.

(** Modelled from the spec: [format_document], imported from the framework
    at line 229 and not under src/: the passage rendered with the template,
    carrying its source name and text.  A document that lacks a variable of
    the template is refused with a [ValueError] naming what is missing (the
    framework collects the names in a set; they are listed here in the
    template's order). *)
Definition format_document (doc : Document) (prompt : PromptTemplate)
  : outcome string :=
  let info := base_info doc in
  let missing_metadata := List.filter (is_missing info) (input_variables prompt) in
  match missing_metadata with
  | [] => format prompt info
  | _ :: _ => Raised (ValueError missing_metadata)
  end.

(** ** Context assembly (cell 19, lines 255-259; repeated in cell 37)

    The list comprehension formats the documents from first to last and
    stops at the first that raises; [document_separator.join] is
    [String.concat]. *)
Definition _combine_documents (docs : list Document)
    (document_prompt : PromptTemplate) (document_separator : string)
  : outcome string :=
  doc_strings ← mapM (λ doc, format_document doc document_prompt) docs;
  Returned (String.concat document_separator doc_strings).

(** ** The assembled context, as the specification words it *)

(** A passage rendered with its source name and its whole text. *)
Definition passage_text (name content : string) : string :=
  LF +:+ "---" +:+ LF +:+ "SOURCE: " +:+ name +:+ LF +:+ content +:+ LF +:+ "---" +:+ LF.

Definition source_name (doc : Document) : string :=
  match metadata doc !! "name" with
  | Some v => str v
  | None => ""
  end.

Definition rendered (doc : Document) : string :=
  passage_text (source_name doc) (page_content doc).

(** Every text after the first is preceded by the separator. *)
Definition separated (sep : string) (texts : list string) : string :=
  match texts with
  | [] => ""
  | first :: others => first +:+ foldr (λ text acc, sep +:+ text +:+ acc) "" others
  end.

(** Where the [i]-th passage starts in the context of [docs]. *)
Definition offset (docs : list Document) (i : nat) : nat :=
  sum_list ((λ doc, String.length (rendered doc) + String.length DOCUMENT_SEPARATOR)%nat
            <$> take i docs).
End Formatting.

(** A document the template can be filled from: it has a source name, and
    no metadata entry takes the place of its text. *)
Definition has_source (doc : Document) : bool :=
  match metadata doc !! "name", metadata doc !! "page_content" with
  | Some _, None => true
  | _, _ => false
  end.

(** A [str] to run the definitions with: Python's on strings.  The samples
    below render strings only, so what it gives elsewhere is never seen. *)
Definition str_of_text (v : value) : string :=
  match v with
  | VStr s => s
  | _ => ""
  end.

(** What a passage should look like in the context, written out as plain
    text and with no part of the model in it: a line feed, three dashes,
    the source line with the name, the text on lines of its own, three
    dashes, a line feed. *)
Definition framed (name content : string) : string :=
  "
---
SOURCE: " +:+ name +:+ "
" +:+ content +:+ "
---
".

(** ** Sample data

    Records of the workplace data set's shape, the metadata the loader hands
    the callback, and passages as the two pipelines produce them: the first
    through [metadata_func], the second through [name_documents]. *)
Definition sales_record : gmap string value :=
  {[ "name" := VStr "Sales Organization Overview";
     "category" := VStr "teams";
     "updated_at" := VStr "2023-04-12" ]}.

Definition undated_record : gmap string value :=
  {[ "name" := VStr "Work From Home Policy" ]}.

Definition unavailable_record : gmap string value :=
  {[ "name" := VStr "Intellectual Property Policy";
     "updated_at" := VStr "N/A" ]}.

Definition loader_metadata : gmap string value :=
  {[ "source" := VStr "temp.json"; "seq_num" := VInt 1 ]}.

Definition sales_passage : Document :=
  {| page_content := "The sales team is organised by region.";
     metadata := metadata_func sales_record loader_metadata |}.

Definition policy_passage : Document :=
  {| page_content := "Employees may work from home.";
     metadata := metadata_func undated_record loader_metadata |}.

Definition nameless_passage : Document :=
  {| page_content := "Anyone can go barefoot.";
     metadata := loader_metadata |}.

Definition barefoot_passage : Document :=
  {| page_content := "Anyone can go barefoot.";
     metadata := <["name" := VStr "document_0"]> loader_metadata |}.

Definition sample_passages : list Document :=
  [sales_passage; policy_passage; barefoot_passage].

(** ** The question-answering chain (cell 19, lines 236-243 and 262-267) *)

(** The double quote, and the notebook's prompt for the final answer: the
    text between the triple quotes of lines 237-242, line by line.
    [ChatPromptTemplate.from_template] is the framework's; its template is
    read as the document template is, and its one message holds the
    formatted text. *)
Definition DQUOTE : string := String "034"%char "".

Definition LLM_CONTEXT_TEMPLATE : string :=
  "You are an assistant for question-answering tasks. Use the following pieces of retrieved context to answer the question. If you don't know the answer, just say that you don't know. Be as verbose and educational in your response as possible. "
    +:+ LF
    +:+ "    " +:+ LF
    +:+ "    context: {context}" +:+ LF
    +:+ "    Question: " +:+ DQUOTE +:+ "{question}" +:+ DQUOTE +:+ LF
    +:+ "    Answer:" +:+ LF
    +:+ "    ".

Definition LLM_CONTEXT_PROMPT : PromptTemplate :=
  match from_template LLM_CONTEXT_TEMPLATE with
  | Returned prompt => prompt
  | Raised _ => []
  end.

(** The prompt's text as it should read, written out as plain text and
    with no part of the model in it (character 34 is the double quote): the
    instructions, the context, the question in double quotes, and the cue
    for the answer. *)
Definition prompt_text (context question : string) : string :=
  "You are an assistant for question-answering tasks. Use the following pieces of retrieved context to answer the question. If you don't know the answer, just say that you don't know. Be as verbose and educational in your response as possible. 
    
    context: " +:+ context +:+ "
    Question: " +:+ String "034"%char question +:+ String "034"%char "
    Answer:
    ".

(** A step of the chain either succeeds or fails with one of the
    exceptions [E] of the services behind it. *)
Inductive attempt (E A : Type) : Type :=
| Success (a : A)
| Failure (e : E).
Arguments Success {E A} a.
Arguments Failure {E A} e.

Section Chain.
Variable str : value → string.
(** The exceptions of the retriever and of the model, and how an exception
    of the formatting code is seen among them. *)
Variable E : Type.
Variable of_exception : exception → E.
(** The two services the notebook builds at lines 191-193: the multi-query
    retriever, from a question to passages, and the language model, from
    the prompt to the answer. *)
Variable retriever : string → attempt E (list Document).
Variable llm : string → attempt E string.

Definition attempted {A : Type} (o : outcome A) : attempt E A :=
  match o with
  | Returned a => Success a
  | Raised e => Failure (of_exception e)
  end.

(** [_context]: the two branches both receive the question; the first
    pipes the retriever into [_combine_documents] (with its defaults), the
    second passes the question through. *)
Definition _context (question : string) : attempt E (gmap string value) :=
  match retriever question with
  | Failure e => Failure e
  | Success docs =>
      match attempted (_combine_documents str docs LLM_DOCUMENT_PROMPT
                         DOCUMENT_SEPARATOR) with
      | Failure e => Failure e
      | Success context =>
          Success {[ "context" := VStr context; "question" := VStr question ]}
      end
  end.

(** [chain = _context | LLM_CONTEXT_PROMPT | llm].  The prompt is a chat
    prompt and [llm] a completion model (line 191), which takes text: it is
    sent the prompt value's string form, the one message of the prompt
    behind the name of its role. *)
Definition chain (question : string) : attempt E string :=
  match _context question with
  | Failure e => Failure e
  | Success info =>
      match attempted (format str LLM_CONTEXT_PROMPT info) with
      | Failure e => Failure e
      | Success prompt => llm ("Human: " +:+ prompt)
      end
  end.
End Chain.

(** ** The second pipeline: scraping and loading (cell 36, lines 311-344) *)

(** The file the [i]-th page is written to and read back from. *)
Definition document_file (i : nat) : string :=
  "document_" +:+ pretty i +:+ ".json".

(** What a loop leaves of the files: it ran to its end, or an exception
    stopped it where it was. *)
Inductive run (S : Type) : Type :=
| Completed (s : S)
| Interrupted (s : S).
Arguments Completed {S} s.
Arguments Interrupted {S} s.

Section Scraping.
(** [requests.get] followed by BeautifulSoup's [get_text]: the text of the
    page the [i]-th request fetches, or [None] when the request raises. *)
Variable get_text : nat → string → option string.
(** [JSONLoader(...).load_and_split], the framework's, with the splitter it
    is given, on a file's path and JSON content: the passages, or [None]
    when it raises. *)
Variable load_and_split : TextSplitter → string → value → option (list Document).

(** Step 1 (lines 319-326): every page's text is written, as the JSON
    object with the one key [content], to the file of its index.  Files are
    kept by path with the JSON value they hold. *)
Fixpoint scrape_from (i : nat) (urls : list string) (files : gmap string value)
  : run (gmap string value) :=
  match urls with
  | [] => Completed files
  | url :: urls' =>
      match get_text i url with
      | None => Interrupted files
      | Some content =>
          scrape_from (S i) urls'
            (<[document_file i := VDict [("content", VStr content)]]> files)
      end
  end.

Definition scrape (urls : list string) (files : gmap string value)
  : run (gmap string value) :=
  scrape_from 0 urls files.

(** Step 2 (lines 329-344): for every index below [len(urls)] the file is
    loaded and split, its passages are named and appended to [docs].  A
    file that is not there, or that the loader refuses, stops the loop
    with [docs] as it then is: the passages of the pages before. *)
Fixpoint load_from (files : gmap string value) (i count : nat)
    (docs : list Document) : run (list Document) :=
  match count with
  | O => Completed docs
  | S count' =>
      match files !! document_file i with
      | None => Interrupted docs
      | Some content =>
          match load_and_split Barefoot.text_splitter (document_file i) content with
          | None => Interrupted docs
          | Some loaded_docs =>
              load_from files (S i) count' (docs ++ name_documents i loaded_docs)
          end
      end
  end.

Definition load (urls : list string) (files : gmap string value)
  : run (list Document) :=
  load_from files 0 (length urls) [].

(** The cell run to its end: scrape, then load what was scraped, and the
    passages it ends with; [None] when an exception stops either loop. *)
Definition scrape_and_load (urls : list string) (files : gmap string value)
  : option (list Document) :=
  match scrape urls files with
  | Completed files' =>
      match load urls files' with
      | Completed docs => Some docs
      | Interrupted _ => None
      end
  | Interrupted _ => None
  end.
End Scraping.

(** The three pages the notebook scrapes (lines 312-316). *)
Definition urls : list string :=
  [ "https://www.thebarefooter.com/faq";
    "https://www.thebarefooter.com/post/trail-glove-7-the-versatile-choice-for-beginners";
    "https://www.thebarefooter.com/post/guide-to-a-healthy-transition-into-barefoot-shoes" ].

(** ** More sample data: services to run the chain and the second pipeline
    with *)

(** A retriever that finds the sample passages whatever the question, one
    that finds nothing, a model that echoes its prompt, and a loader that
    makes one passage of a file's [content]. *)
Definition sample_retriever (question : string)
  : attempt exception (list Document) :=
  Success sample_passages.

Definition empty_retriever (question : string)
  : attempt exception (list Document) :=
  Success [].

Definition echo_llm (prompt : string) : attempt exception string :=
  Success prompt.

Definition sample_get_text (i : nat) (url : string) : option string :=
  Some ("text of " +:+ url).

Definition sample_load_and_split (text_splitter : TextSplitter)
    (path : string) (content : value) : option (list Document) :=
  match content with
  | VDict [(key, VStr text)] =>
      if bool_decide (key = "content")
      then Some [ {| page_content := text;
                     metadata := {[ "source" := VStr path;
                                    "seq_num" := VInt 1 ]} |} ]
      else None
  | _ => None
  end.

(** * Properties of the metadata callback *)

Section MetadataFunc.
Implicit Types record metadata : gmap string value.

Lemma get_present record key dflt v :
  record !! key = Some v → get record key dflt = v.
Proof. unfold get. by intros ->. Qed.

Lemma get_absent record key dflt :
  record !! key = None → get record key dflt = dflt.
Proof. unfold get. by intros ->. Qed.

Lemma eq_str_true v lit : eq_str v lit = true ↔ v = VStr lit.
Proof.
  destruct v; simpl; try (split; [discriminate | congruence]).
  rewrite bool_decide_eq_true. split; [by intros -> | congruence].
Qed.

Lemma eq_str_false v lit : eq_str v lit = false ↔ v ≠ VStr lit.
Proof.
  rewrite <- eq_str_true. destruct (eq_str v lit); split; congruence.
Qed.

(** The last write of the callback decides the timestamp. *)
Lemma metadata_func_updated_at_lookup record metadata :
  metadata_func record metadata !! "updated_at" =
  Some (if truthy (get record "updated_at" VNone)
           && negb (eq_str (get record "updated_at" VNone) "N/A")
        then get record "updated_at" VNone
        else VStr "1970-01-01").
Proof.
  unfold metadata_func.
  destruct (truthy _ && negb _); by rewrite lookup_insert_eq.
Qed.

(** The name: the record's, or the default. *)
Lemma metadata_func_name record metadata :
  metadata_func record metadata !! "name" =
  Some (get record "name" (VStr "Unknown Name")).
Proof.
  unfold metadata_func.
  destruct (truthy _ && negb _);
    rewrite !lookup_insert_ne by done; apply lookup_insert_eq.
Qed.

(** Keys other than the four the callback writes are left as they were. *)
Lemma metadata_func_frame record metadata key :
  key ∉ ["name"; "url"; "category"; "updated_at"] →
  metadata_func record metadata !! key = metadata !! key.
Proof.
  rewrite !not_elem_of_cons. intros (? & ? & ? & ? & _).
  unfold metadata_func.
  destruct (truthy _ && negb _); by rewrite !lookup_insert_ne by done.
Qed.
End MetadataFunc.

Example metadata_func_dated :
  metadata_func sales_record loader_metadata !! "updated_at"
  = Some (VStr "2023-04-12").
Proof. vm_compute. reflexivity. Qed.

Example metadata_func_undated :
  metadata_func undated_record loader_metadata !! "updated_at"
  = Some (VStr "1970-01-01").
Proof. vm_compute. reflexivity. Qed.

Example metadata_func_blank :
  metadata_func {[ "updated_at" := VStr "" ]} loader_metadata !! "updated_at"
  = Some (VStr "1970-01-01").
Proof. vm_compute. reflexivity. Qed.

Example metadata_func_null :
  metadata_func {[ "updated_at" := VNone ]} loader_metadata !! "updated_at"
  = Some (VStr "1970-01-01").
Proof. vm_compute. reflexivity. Qed.

Example metadata_func_unavailable :
  unavailable_record !! "updated_at" = Some (VStr "N/A")
  ∧ metadata_func unavailable_record loader_metadata !! "updated_at"
    = Some (VStr "1970-01-01").
Proof. split; vm_compute; reflexivity. Qed.

(** * Strings: append, length, substring and [String.concat] *)

Section Strings.
Implicit Types s t u sep : string.

Lemma string_app_cons c s t : String c s +:+ t = String c (s +:+ t).
Proof. reflexivity. Qed.

Lemma string_app_empty_r s : s +:+ "" = s.
Proof. induction s as [|c s IH]; [done|]. by rewrite string_app_cons, IH. Qed.

Lemma string_app_assoc s t u : (s +:+ t) +:+ u = s +:+ (t +:+ u).
Proof. induction s as [|c s IH]; [done|]. by rewrite !string_app_cons, IH. Qed.

Lemma string_length_app s t :
  String.length (s +:+ t) = (String.length s + String.length t)%nat.
Proof.
  induction s as [|c s IH]; [done|].
  rewrite string_app_cons. simpl. by rewrite IH.
Qed.

Lemma string_length_zero s : String.length s = 0%nat ↔ s = "".
Proof. destruct s; simpl; split; (done || lia || discriminate). Qed.

Lemma substring_whole s t :
  String.substring 0 (String.length s) (s +:+ t) = s.
Proof.
  induction s as [|c s IH].
  - simpl. by destruct t.
  - rewrite string_app_cons. simpl. by rewrite IH.
Qed.

Lemma substring_skip s t n m :
  String.substring (String.length s + n) m (s +:+ t) = String.substring n m t.
Proof.
  induction s as [|c s IH]; [done|]. rewrite string_app_cons. simpl. apply IH.
Qed.

(** [String.concat] puts the separator before every text but the first. *)
Lemma concat_cons sep t texts :
  String.concat sep (t :: texts) =
  t +:+ foldr (λ u acc, sep +:+ u +:+ acc) "" texts.
Proof.
  revert t. induction texts as [|u texts IH]; intros t.
  - simpl. by rewrite string_app_empty_r.
  - change (String.concat sep (t :: u :: texts))
      with (t +:+ sep +:+ String.concat sep (u :: texts)).
    by rewrite IH.
Qed.

Lemma concat_length sep texts :
  String.length (String.concat sep texts) =
  (sum_list (String.length <$> texts)
   + String.length sep * (length texts - 1))%nat.
Proof.
  induction texts as [|t [|u texts] IH]; [simpl; lia | simpl; lia |].
  change (String.concat sep (t :: u :: texts))
    with (t +:+ sep +:+ String.concat sep (u :: texts)).
  rewrite !string_length_app, IH. simpl. lia.
Qed.

(** The [i]-th text stands whole in the concatenation, after the texts
    before it and their separators. *)
Lemma concat_lookup sep texts i t :
  texts !! i = Some t →
  String.substring
    (sum_list ((λ u, String.length u + String.length sep)%nat <$> take i texts))
    (String.length t) (String.concat sep texts) = t.
Proof.
  revert i. induction texts as [|t0 texts IH]; intros i Hi; [done|].
  rewrite concat_cons. destruct i as [|i]; simpl in Hi.
  - injection Hi as ->. simpl. apply substring_whole.
  - destruct texts as [|u texts]; [done|].
    cbn [take fmap list_fmap sum_list sum_list_with foldr].
    rewrite <- concat_cons.
    unfold id. rewrite <- Nat.add_assoc, !substring_skip.
    by apply IH.
Qed.

Lemma concat_empty_iff sep texts :
  Forall (λ t, t ≠ "") texts →
  String.concat sep texts = "" ↔ texts = [].
Proof.
  intros Hne. split; [|by intros ->].
  destruct texts as [|t texts]; [done|]. intros Heq.
  apply Forall_cons in Hne as [Ht _]. exfalso. apply Ht.
  rewrite concat_cons in Heq.
  apply string_length_zero. apply string_length_zero in Heq.
  rewrite string_length_app in Heq. lia.
Qed.
End Strings.

(** * The document template and [format_document] *)

Lemma LLM_DOCUMENT_PROMPT_parsed :
  from_template LLM_DOCUMENT_TEMPLATE = Returned LLM_DOCUMENT_PROMPT.
Proof. vm_compute. reflexivity. Qed.

Lemma LLM_DOCUMENT_PROMPT_pieces :
  LLM_DOCUMENT_PROMPT =
  [ Literal (LF +:+ "---" +:+ LF +:+ "SOURCE: ");
    Field "name";
    Literal LF;
    Field "page_content";
    Literal (LF +:+ "---" +:+ LF) ].
Proof. vm_compute. reflexivity. Qed.

Lemma LLM_DOCUMENT_PROMPT_variables :
  input_variables LLM_DOCUMENT_PROMPT = ["name"; "page_content"].
Proof. vm_compute. reflexivity. Qed.

Lemma DOCUMENT_SEPARATOR_length : String.length DOCUMENT_SEPARATOR = 2%nat.
Proof. reflexivity. Qed.

Lemma has_source_spec doc :
  has_source doc = true ↔
  is_Some (metadata doc !! "name") ∧ metadata doc !! "page_content" = None.
Proof.
  unfold has_source.
  destruct (metadata doc !! "name"), (metadata doc !! "page_content");
    split; try done; intros [[? ?] ?]; done.
Qed.

(** Every passage of the first pipeline has a source name: the callback
    writes one whatever the record holds. *)
Lemma metadata_func_has_source record metadata0 content :
  metadata0 !! "page_content" = None →
  has_source {| page_content := content;
                metadata := metadata_func record metadata0 |} = true.
Proof.
  intros Hfree. apply has_source_spec. simpl. split.
  - rewrite metadata_func_name. eauto.
  - rewrite metadata_func_frame; [done|].
    rewrite !not_elem_of_cons. repeat split; try done. apply not_elem_of_nil.
Qed.

(** So has every passage of the second, once the loop has named it. *)
Lemma name_documents_have_source i loaded_docs :
  Forall (λ doc, metadata doc !! "page_content" = None) loaded_docs →
  Forall (λ doc, has_source doc = true) (name_documents i loaded_docs).
Proof.
  intros Hfree. unfold name_documents. apply Forall_fmap.
  eapply Forall_impl; [exact Hfree|]. intros doc Hdoc.
  apply has_source_spec. simpl. split.
  - rewrite lookup_insert_eq. eauto.
  - by rewrite lookup_insert_ne.
Qed.

Example name_documents_sample :
  name_documents 0 [nameless_passage] = [barefoot_passage].
Proof. reflexivity. Qed.

Lemma sample_passages_have_source :
  Forall (λ doc, has_source doc = true) sample_passages.
Proof. repeat constructor. Qed.

Section FormattingFacts.
Variable str : value → string.
Hypothesis str_VStr : ∀ s, str (VStr s) = s.

Implicit Types doc : Document.
Implicit Types docs : list Document.

Lemma base_info_metadata doc key v :
  metadata doc !! key = Some v → base_info doc !! key = Some v.
Proof. intros Hkey. unfold base_info. by apply lookup_union_Some_l. Qed.

Lemma base_info_page_content doc :
  metadata doc !! "page_content" = None →
  base_info doc !! "page_content" = Some (VStr (page_content doc)).
Proof.
  intros Hfree. unfold base_info.
  rewrite lookup_union_r by done. apply lookup_singleton_eq.
Qed.

Lemma base_info_missing doc key :
  key ≠ "page_content" → metadata doc !! key = None →
  base_info doc !! key = None.
Proof.
  intros Hkey Hnone. unfold base_info.
  rewrite lookup_union_r by done. by apply lookup_singleton_ne.
Qed.

(** The template filled from a document with a source name. *)
Lemma format_document_rendered doc :
  has_source doc = true →
  format_document str doc LLM_DOCUMENT_PROMPT = Returned (rendered str doc).
Proof.
  intros [[v Hname] Hfree]%has_source_spec.
  pose proof (base_info_metadata _ _ _ Hname) as Hn.
  pose proof (base_info_page_content _ Hfree) as Hp.
  unfold format_document, rendered, source_name, passage_text, is_missing.
  rewrite LLM_DOCUMENT_PROMPT_variables, Hname.
  cbn [List.filter]. rewrite Hn, Hp.
  rewrite LLM_DOCUMENT_PROMPT_pieces. cbn [format]. rewrite Hn, Hp.
  cbn [mbind outcome_bind]. rewrite str_VStr.
  by rewrite !string_app_assoc, string_app_empty_r.
Qed.

(** Without one, the framework refuses the document. *)
Lemma format_document_nameless doc :
  metadata doc !! "name" = None →
  metadata doc !! "page_content" = None →
  format_document str doc LLM_DOCUMENT_PROMPT = Raised (ValueError ["name"]).
Proof.
  intros Hname Hfree.
  pose proof (base_info_missing doc "name" ltac:(done) Hname) as Hn.
  pose proof (base_info_page_content _ Hfree) as Hp.
  unfold format_document, is_missing.
  rewrite LLM_DOCUMENT_PROMPT_variables.
  cbn [List.filter]. by rewrite Hn, Hp.
Qed.

(** A name that is a string is printed as it stands. *)
Lemma rendered_string_name doc name :
  metadata doc !! "name" = Some (VStr name) →
  rendered str doc = passage_text name (page_content doc).
Proof.
  intros Hname. unfold rendered, source_name. by rewrite Hname, str_VStr.
Qed.

Lemma rendered_length doc :
  String.length (rendered str doc) =
  (19 + String.length (source_name str doc)
      + String.length (page_content doc))%nat.
Proof.
  unfold rendered, passage_text. rewrite !string_length_app. simpl. lia.
Qed.

Lemma rendered_nonempty doc : rendered str doc ≠ "".
Proof.
  intros Heq%string_length_zero. rewrite rendered_length in Heq. lia.
Qed.

Lemma mapM_format_document docs :
  Forall (λ doc, has_source doc = true) docs →
  mapM (λ doc, format_document str doc LLM_DOCUMENT_PROMPT) docs
  = Returned (rendered str <$> docs).
Proof.
  induction 1 as [|doc docs Hdoc Hdocs IH]; [done|].
  cbn [mapM]. rewrite format_document_rendered by done.
  cbn [mbind outcome_bind]. by rewrite IH.
Qed.

(** The list comprehension stops at the first document that raises. *)
Lemma mapM_format_document_raises docs doc docs' e :
  Forall (λ doc, has_source doc = true) docs →
  format_document str doc LLM_DOCUMENT_PROMPT = Raised e →
  mapM (λ doc, format_document str doc LLM_DOCUMENT_PROMPT)
       (docs ++ doc :: docs') = Raised e.
Proof.
  intros Hdocs Hraise.
  induction Hdocs as [|d docs Hd Hdocs IH]; cbn [app mapM].
  - by rewrite Hraise.
  - rewrite format_document_rendered by done.
    cbn [mbind outcome_bind]. by rewrite IH.
Qed.

Lemma combine_documents_concat docs sep :
  Forall (λ doc, has_source doc = true) docs →
  _combine_documents str docs LLM_DOCUMENT_PROMPT sep
  = Returned (String.concat sep (rendered str <$> docs)).
Proof.
  intros Hdocs. unfold _combine_documents.
  by rewrite mapM_format_document.
Qed.

Lemma combine_documents_raises docs doc docs' sep :
  Forall (λ doc, has_source doc = true) docs →
  metadata doc !! "name" = None →
  metadata doc !! "page_content" = None →
  _combine_documents str (docs ++ doc :: docs') LLM_DOCUMENT_PROMPT sep
  = Raised (ValueError ["name"]).
Proof.
  intros Hdocs Hname Hfree. unfold _combine_documents.
  by rewrite (mapM_format_document_raises docs doc docs' _ Hdocs
                (format_document_nameless doc Hname Hfree)).
Qed.

Lemma offset_renderings docs i :
  offset str docs i =
  sum_list ((λ u, String.length u + String.length DOCUMENT_SEPARATOR)%nat
            <$> take i (rendered str <$> docs)).
Proof. unfold offset. by rewrite <- fmap_take, <- list_fmap_compose. Qed.

Lemma separated_concat sep (texts : list string) :
  separated sep texts = String.concat sep texts.
Proof. destruct texts as [|t texts]; [done|]. by rewrite concat_cons. Qed.
End FormattingFacts.

(** * The metadata callback's timestamp *)

(** C9 as stated (the record's [updated_at] when present, the epoch
    sentinel when missing) fails: [unavailable_record], whose [updated_at]
    is present but holds the placeholder N/A, gets the sentinel and not its
    own value. *)
Lemma metadata_func_updated_at_present_not_kept :
  ¬ ∀ record metadata : gmap string value,
      metadata_func record metadata !! "updated_at"
      = Some (default (VStr "1970-01-01") (record !! "updated_at")).
Proof.
  intros Hclaim.
  specialize (Hclaim unavailable_record loader_metadata).
  rewrite (proj2 metadata_func_unavailable) in Hclaim.
  rewrite (proj1 metadata_func_unavailable) in Hclaim.
  discriminate Hclaim.
Qed.

(** C9, amended: the metadata the callback returns always carries a
    last-updated timestamp.  It is the record's [updated_at] when that is
    present, true in Python's sense (not null, not empty, not zero) and
    different from the placeholder N/A; it is the epoch sentinel 1970-01-01
    when [updated_at] is missing, false in Python's sense, or N/A. *)
Theorem metadata_func_updated_at (record metadata : gmap string value) :
  let stamp := metadata_func record metadata !! "updated_at" in
  is_Some stamp
  ∧ (record !! "updated_at" = None → stamp = Some (VStr "1970-01-01"))
  ∧ (∀ v, record !! "updated_at" = Some v →
          truthy v = true → v ≠ VStr "N/A" → stamp = Some v)
  ∧ (∀ v, record !! "updated_at" = Some v →
          truthy v = false ∨ v = VStr "N/A" →
          stamp = Some (VStr "1970-01-01")).
Proof.
  cbv zeta. rewrite metadata_func_updated_at_lookup.
  split; [eauto|]. split; [|split].
  - intros Habsent. by rewrite (get_absent _ _ _ Habsent).
  - intros v Hpresent Htrue Hne. rewrite (get_present _ _ _ _ Hpresent).
    apply eq_str_false in Hne. by rewrite Htrue, Hne.
  - intros v Hpresent Hno. rewrite (get_present _ _ _ _ Hpresent).
    destruct Hno as [Hfalse | ->]; [by rewrite Hfalse|].
    by rewrite (proj2 (eq_str_true _ _) eq_refl), andb_false_r.
Qed.

(** The dated sample record keeps its date. *)
Lemma metadata_func_updated_at_witness :
  metadata_func sales_record loader_metadata !! "updated_at"
  = Some (VStr "2023-04-12").
Proof.
  refine (proj1 (proj2 (proj2
            (metadata_func_updated_at sales_record loader_metadata)))
          (VStr "2023-04-12") _ _ _).
  - vm_compute. reflexivity.
  - reflexivity.
  - discriminate.
Defined.

(** * The splitter's parameters *)

(** C10: both splitters are built with a chunk size of 808, not the 800 the
    notebook's own text announces; the overlap is 400 as announced. *)
Theorem text_splitter_parameters :
  chunk_size Workplace.text_splitter = 808%Z
  ∧ chunk_size Barefoot.text_splitter = 808%Z
  ∧ chunk_size Workplace.text_splitter ≠ 800%Z
  ∧ chunk_size Barefoot.text_splitter ≠ 800%Z
  ∧ chunk_overlap Workplace.text_splitter = 400%Z
  ∧ chunk_overlap Barefoot.text_splitter = 400%Z.
Proof. repeat split; (reflexivity || discriminate). Qed.

(** * Context assembly *)

Example combine_documents_two_passages :
  _combine_documents str_of_text [sales_passage; barefoot_passage]
    LLM_DOCUMENT_PROMPT DOCUMENT_SEPARATOR
  = Returned
      (LF +:+ "---" +:+ LF +:+ "SOURCE: Sales Organization Overview" +:+ LF
          +:+ "The sales team is organised by region." +:+ LF +:+ "---" +:+ LF
          +:+ LF +:+ LF
          +:+ LF +:+ "---" +:+ LF +:+ "SOURCE: document_0" +:+ LF
          +:+ "Anyone can go barefoot." +:+ LF +:+ "---" +:+ LF).
Proof. vm_compute. reflexivity. Qed.

Example combine_documents_nameless :
  _combine_documents str_of_text [sales_passage; nameless_passage]
    LLM_DOCUMENT_PROMPT DOCUMENT_SEPARATOR
  = Raised (ValueError ["name"]).
Proof. vm_compute. reflexivity. Qed.

Section ContextAssembly.
Variable str : value → string.
Hypothesis str_VStr : ∀ s, str (VStr s) = s.

(** The context of the one sample passage, whatever [str] does to values
    that are not strings: its rendering, 84 characters long. *)
Lemma combine_documents_sales :
  _combine_documents str [sales_passage] LLM_DOCUMENT_PROMPT DOCUMENT_SEPARATOR
  = Returned (passage_text "Sales Organization Overview"
                           "The sales team is organised by region.")
  ∧ String.length (passage_text "Sales Organization Overview"
                                "The sales team is organised by region.")
    = 84%nat.
Proof.
  split; [|reflexivity].
  rewrite (combine_documents_concat str str_VStr) by (repeat constructor).
  cbn [fmap list_fmap String.concat]. f_equal.
  by apply rendered_string_name.
Qed.

(** C8, amended: for every list of documents each of which has a name in
    its metadata and no metadata entry called page_content,
    [_combine_documents] (with its default template and separator) returns
    exactly the documents in the input order, each framed as
    [LLM_DOCUMENT_PROMPT] frames it (its source name and its whole page
    content) and each after the first preceded by two line feeds; no
    document is left out or cut, no size budget enters; and the empty list
    gives the empty string.  The frame and the two line feeds are written
    out in the statement, character by character. *)
Theorem combine_documents_exact (docs : list Document) :
  Forall (λ doc, has_source doc = true) docs →
  _combine_documents str docs LLM_DOCUMENT_PROMPT DOCUMENT_SEPARATOR
  = Returned (separated (String "010"%char (String "010"%char ""))
                ((λ doc, framed (source_name str doc) (page_content doc))
                 <$> docs))
  ∧ _combine_documents str [] LLM_DOCUMENT_PROMPT DOCUMENT_SEPARATOR
    = Returned "".
Proof.
  intros Hdocs. split; [|reflexivity].
  rewrite separated_concat.
  by rewrite (combine_documents_concat str str_VStr).
Qed.

(** C3, amended: [_combine_documents], the notebook's context assembler,
    takes no budget.  For passages that have a name in their metadata and
    no metadata entry called page_content (it would take the text's place
    in the template) it returns a
    string in which every passage stands whole, in the given order (the
    [i]-th rendering at the offset the renderings before it and their
    separators add up to), and whose length is the sum of the renderings'
    lengths plus two characters per separator, however long that is. *)
Theorem combine_documents_keeps_every_passage (docs : list Document) :
  Forall (λ doc, has_source doc = true) docs →
  ∃ out,
    _combine_documents str docs LLM_DOCUMENT_PROMPT DOCUMENT_SEPARATOR
    = Returned out
    ∧ String.length out
      = (sum_list (String.length ∘ rendered str <$> docs)
         + 2 * (length docs - 1))%nat
    ∧ ∀ i doc, docs !! i = Some doc →
        String.substring (offset str docs i)
          (String.length (rendered str doc)) out
        = rendered str doc.
Proof.
  intros Hdocs. eexists. split; [by apply combine_documents_concat|]. split.
  - rewrite concat_length, length_fmap, DOCUMENT_SEPARATOR_length.
    by rewrite <- list_fmap_compose.
  - intros i doc Hi. rewrite offset_renderings.
    apply concat_lookup. by rewrite list_lookup_fmap, Hi.
Qed.

(** C6, amended: for passages that have a name in their metadata and no
    metadata entry called page_content (it would take the text's place in
    the template),
    [_combine_documents] returns the empty string exactly when the
    passage list is empty.  For a non-empty list the result is not empty
    and begins with the whole rendering of the first passage, whatever
    its size. *)
Theorem combine_documents_empty_iff (docs : list Document) :
  Forall (λ doc, has_source doc = true) docs →
  ∃ out,
    _combine_documents str docs LLM_DOCUMENT_PROMPT DOCUMENT_SEPARATOR
    = Returned out
    ∧ (out = "" ↔ docs = [])
    ∧ ∀ doc rest, docs = doc :: rest →
        String.prefix (rendered str doc) out = true.
Proof.
  intros Hdocs. eexists. split; [by apply combine_documents_concat|]. split.
  - rewrite concat_empty_iff.
    + split; [apply fmap_nil_inv | by intros ->].
    + apply Forall_fmap, Forall_true. intros doc. apply rendered_nonempty.
  - intros doc rest ->. apply String.prefix_correct.
    apply (concat_lookup DOCUMENT_SEPARATOR (rendered str <$> doc :: rest) 0).
    reflexivity.
Qed.
End ContextAssembly.

(** C8 as stated (for every list of input documents) fails: the list of
    [sales_passage] and [nameless_passage], whose metadata has no name, is
    not assembled at all; the call raises the [ValueError] of the passage
    the template cannot be filled from. *)
Lemma combine_documents_not_every_list :
  ¬ ∀ docs : list Document,
      _combine_documents str_of_text docs LLM_DOCUMENT_PROMPT DOCUMENT_SEPARATOR
      = Returned (separated (String "010"%char (String "010"%char ""))
                    ((λ doc, framed (source_name str_of_text doc)
                                    (page_content doc)) <$> docs)).
Proof.
  intros Hclaim.
  specialize (Hclaim [sales_passage; nameless_passage]).
  rewrite combine_documents_nameless in Hclaim. discriminate Hclaim.
Qed.

(** The three sample passages, assembled. *)
Lemma combine_documents_exact_witness :
  (∀ s, str_of_text (VStr s) = s)
  ∧ Forall (λ doc, has_source doc = true) sample_passages
  ∧ _combine_documents str_of_text sample_passages
      LLM_DOCUMENT_PROMPT DOCUMENT_SEPARATOR
    = Returned
        (separated (String "010"%char (String "010"%char ""))
           ((λ doc, framed (source_name str_of_text doc) (page_content doc))
            <$> sample_passages))
  ∧ _combine_documents str_of_text [] LLM_DOCUMENT_PROMPT DOCUMENT_SEPARATOR
    = Returned "".
Proof.
  split; [reflexivity|]. split; [exact sample_passages_have_source|].
  apply (combine_documents_exact str_of_text).
  - reflexivity.
  - exact sample_passages_have_source.
Defined.

(** C3 as stated (the returned string is never longer than [max_chars])
    fails: the assembler takes no budget, and for the one passage
    [sales_passage] and a budget of 10 characters it returns all 84
    characters of the passage's rendering. *)
Lemma combine_documents_exceeds_budget :
  ¬ ∀ (docs : list Document) (max_chars : Z) (out : string),
      _combine_documents str_of_text docs LLM_DOCUMENT_PROMPT DOCUMENT_SEPARATOR
      = Returned out →
      (Z.of_nat (String.length out) ≤ max_chars)%Z.
Proof.
  intros Hclaim.
  destruct (combine_documents_sales str_of_text (λ s, eq_refl)) as [Hrun Hlen].
  pose proof (Hclaim [sales_passage] 10%Z _ Hrun) as Hfits.
  rewrite Hlen in Hfits. lia.
Qed.

Lemma combine_documents_keeps_every_passage_witness :
  (∀ s, str_of_text (VStr s) = s)
  ∧ Forall (λ doc, has_source doc = true) sample_passages
  ∧ ∃ out,
      _combine_documents str_of_text sample_passages
        LLM_DOCUMENT_PROMPT DOCUMENT_SEPARATOR
      = Returned out
      ∧ String.length out
        = (sum_list (String.length ∘ rendered str_of_text <$> sample_passages)
           + 2 * (length sample_passages - 1))%nat
      ∧ ∀ i doc, sample_passages !! i = Some doc →
          String.substring (offset str_of_text sample_passages i)
            (String.length (rendered str_of_text doc)) out
          = rendered str_of_text doc.
Proof.
  split; [reflexivity|]. split; [exact sample_passages_have_source|].
  apply (combine_documents_keeps_every_passage str_of_text).
  - reflexivity.
  - exact sample_passages_have_source.
Defined.

(** C6 as stated (the result is empty exactly when the list is empty or the
    budget cannot hold the first passage) fails: for the one passage
    [sales_passage], whose rendering of 84 characters exceeds a budget of
    10, the result is that rendering and not the empty string. *)
Lemma combine_documents_nonempty_over_budget :
  ¬ ∀ (docs : list Document) (max_chars : Z) (out : string),
      _combine_documents str_of_text docs LLM_DOCUMENT_PROMPT DOCUMENT_SEPARATOR
      = Returned out →
      (out = "" ↔
       docs = [] ∨
       ∃ doc rest, docs = doc :: rest
         ∧ (max_chars < Z.of_nat (String.length (rendered str_of_text doc)))%Z).
Proof.
  intros Hclaim.
  destruct (combine_documents_sales str_of_text (λ s, eq_refl)) as [Hrun Hlen].
  destruct (Hclaim [sales_passage] 10%Z _ Hrun) as [_ Hempty].
  enough (passage_text "Sales Organization Overview"
            "The sales team is organised by region." = "") as Heq
    by (rewrite Heq in Hlen; discriminate Hlen).
  apply Hempty. right. exists sales_passage, []. split; [reflexivity|].
  rewrite (rendered_string_name str_of_text (λ s, eq_refl) sales_passage
             "Sales Organization Overview") by reflexivity.
  change (page_content sales_passage)
    with "The sales team is organised by region.".
  rewrite Hlen. lia.
Qed.

Lemma combine_documents_empty_iff_witness :
  (∀ s, str_of_text (VStr s) = s)
  ∧ Forall (λ doc, has_source doc = true) sample_passages
  ∧ ∃ out,
      _combine_documents str_of_text sample_passages
        LLM_DOCUMENT_PROMPT DOCUMENT_SEPARATOR
      = Returned out
      ∧ (out = "" ↔ sample_passages = [])
      ∧ ∀ doc rest, sample_passages = doc :: rest →
          String.prefix (rendered str_of_text doc) out = true.
Proof.
  split; [reflexivity|]. split; [exact sample_passages_have_source|].
  apply (combine_documents_empty_iff str_of_text).
  - reflexivity.
  - exact sample_passages_have_source.
Defined.

(** * More on the metadata callback *)

Section MetadataFuncMore.
Implicit Types record metadata : gmap string value.

Lemma metadata_func_url record metadata :
  metadata_func record metadata !! "url" = Some (get record "url" (VStr "N/A")).
Proof.
  unfold metadata_func.
  destruct (truthy _ && negb _);
    rewrite !lookup_insert_ne by done; apply lookup_insert_eq.
Qed.

Lemma metadata_func_category record metadata :
  metadata_func record metadata !! "category" =
  Some (get record "category" (VStr "Uncategorized")).
Proof.
  unfold metadata_func.
  destruct (truthy _ && negb _);
    rewrite !lookup_insert_ne by done; apply lookup_insert_eq.
Qed.

Lemma get_agree record record' key dflt :
  record !! key = record' !! key → get record key dflt = get record' key dflt.
Proof. unfold get. by intros ->. Qed.

(** The callback's result is fixed by four fields of the record and by the
    entries of the dictionary under other keys. *)
Lemma metadata_func_ext record record' metadata metadata' :
  (∀ key, key ∈ ["name"; "url"; "category"; "updated_at"] →
          record !! key = record' !! key) →
  (∀ key, key ∉ ["name"; "url"; "category"; "updated_at"] →
          metadata !! key = metadata' !! key) →
  metadata_func record metadata = metadata_func record' metadata'.
Proof.
  intros Hrecord Hmetadata. apply map_eq. intros key.
  destruct (decide (key ∈ ["name"; "url"; "category"; "updated_at"])) as [Hin|Hout].
  - assert (∀ k dflt, k ∈ ["name"; "url"; "category"; "updated_at"] →
                      get record k dflt = get record' k dflt) as Hget.
    { intros k dflt Hk. apply get_agree, Hrecord, Hk. }
    rewrite !elem_of_cons, elem_of_nil in Hin.
    destruct Hin as [-> | [-> | [-> | [-> | []]]]].
    + rewrite !metadata_func_name, Hget; [done|]. set_solver.
    + rewrite !metadata_func_url, Hget; [done|]. set_solver.
    + rewrite !metadata_func_category, Hget; [done|]. set_solver.
    + rewrite !metadata_func_updated_at_lookup, Hget; [done|]. set_solver.
  - rewrite !metadata_func_frame by done. by apply Hmetadata.
Qed.
End MetadataFuncMore.

(** X1: the name, the url and the category are copied from the record
    whenever the record has the key, whatever it holds (a null or empty
    value included, unlike [updated_at]); only a record without the key gets
    the default: Unknown Name, N/A, Uncategorized. *)
Theorem metadata_func_copied_fields (record metadata : gmap string value) :
  metadata_func record metadata !! "name"
  = Some (default (VStr "Unknown Name") (record !! "name"))
  ∧ metadata_func record metadata !! "url"
    = Some (default (VStr "N/A") (record !! "url"))
  ∧ metadata_func record metadata !! "category"
    = Some (default (VStr "Uncategorized") (record !! "category")).
Proof.
  split; [apply metadata_func_name|].
  split; [apply metadata_func_url | apply metadata_func_category].
Qed.

(** X2: the callback adds exactly its four keys to the dictionary it is
    handed, and leaves every entry under another key (the loader's source
    and sequence number, say) as it was. *)
Theorem metadata_func_dom_frame (record metadata : gmap string value) :
  dom (metadata_func record metadata)
  = {[ "name"; "url"; "category"; "updated_at" ]} ∪ dom metadata
  ∧ ∀ key, key ∉ ["name"; "url"; "category"; "updated_at"] →
      metadata_func record metadata !! key = metadata !! key.
Proof.
  split; [|intros key; apply metadata_func_frame].
  unfold metadata_func.
  destruct (truthy _ && negb _); rewrite !dom_insert_L;
    apply set_eq; intros key;
    rewrite !elem_of_union, !elem_of_singleton; tauto.
Qed.

(** X3: running the callback a second time on its own result changes
    nothing, and what the four keys held before the call never shows in the
    result. *)
Theorem metadata_func_idempotent (record metadata : gmap string value) :
  metadata_func record (metadata_func record metadata)
  = metadata_func record metadata
  ∧ ∀ key v, key ∈ ["name"; "url"; "category"; "updated_at"] →
      metadata_func record (<[key := v]> metadata)
      = metadata_func record metadata.
Proof.
  split.
  - apply metadata_func_ext; [done|]. intros key. apply metadata_func_frame.
  - intros key v Hkey. apply metadata_func_ext; [done|].
    intros key' Hkey'. apply lookup_insert_ne. by intros ->.
Qed.

(** X4: the callback reads four fields of the record and nothing else: two
    records that agree on name, url, category and updated_at give the same
    metadata, so the record's content or any other field never reaches the
    passage's metadata. *)
Theorem metadata_func_reads_four_fields
    (record record' metadata : gmap string value) :
  record !! "name" = record' !! "name" →
  record !! "url" = record' !! "url" →
  record !! "category" = record' !! "category" →
  record !! "updated_at" = record' !! "updated_at" →
  metadata_func record metadata = metadata_func record' metadata.
Proof.
  intros Hname Hurl Hcategory Hupdated. apply metadata_func_ext; [|done].
  intros key Hkey. rewrite !elem_of_cons, elem_of_nil in Hkey.
  by destruct Hkey as [-> | [-> | [-> | [-> | []]]]].
Qed.

Lemma metadata_func_reads_four_fields_witness :
  metadata_func (<["content" := VStr "The sales team."]> sales_record)
                loader_metadata
  = metadata_func sales_record loader_metadata.
Proof.
  apply (metadata_func_reads_four_fields
           (<["content" := VStr "The sales team."]> sales_record) sales_record);
    reflexivity.
Defined.

(** X5: the timestamp the callback writes is never null, empty, zero or
    the placeholder N/A, whatever the record holds. *)
Theorem metadata_func_updated_at_valid (record metadata : gmap string value) :
  ∃ stamp, metadata_func record metadata !! "updated_at" = Some stamp
           ∧ truthy stamp = true ∧ stamp ≠ VStr "N/A".
Proof.
  eexists. split; [apply metadata_func_updated_at_lookup|].
  destruct (truthy (get record "updated_at" VNone)) eqn:Htruthy; simpl.
  - destruct (eq_str (get record "updated_at" VNone) "N/A") eqn:Heq; simpl.
    + split; [reflexivity | discriminate].
    + split; [exact Htruthy | by apply eq_str_false].
  - split; [reflexivity | discriminate].
Qed.

(** * Naming the scraped passages *)

Lemma string_app_inj_r (s t u : string) : s +:+ u = t +:+ u → s = t.
Proof.
  revert t. induction s as [|c s IH]; intros [|d t] Heq.
  - done.
  - exfalso. apply (f_equal String.length) in Heq.
    rewrite !string_length_app in Heq. simpl in Heq. lia.
  - exfalso. apply (f_equal String.length) in Heq.
    rewrite !string_length_app in Heq. simpl in Heq. lia.
  - rewrite !string_app_cons in Heq. injection Heq as -> Heq.
    f_equal. by apply IH.
Qed.

Lemma document_name_inj (i j : nat) :
  "document_" +:+ pretty i = "document_" +:+ pretty j → i = j.
Proof.
  intros Heq. apply (inj (String.append "document_")) in Heq.
  by apply pretty_nat_inj.
Qed.

Lemma document_file_inj (i j : nat) : document_file i = document_file j → i = j.
Proof.
  unfold document_file. intros Heq.
  apply (inj (String.append "document_")), string_app_inj_r in Heq.
  by apply pretty_nat_inj.
Qed.

Lemma name_documents_names (i : nat) (loaded_docs : list Document) :
  Forall (λ doc, metadata doc !! "name"
                 = Some (VStr ("document_" +:+ pretty i)))
         (name_documents i loaded_docs).
Proof.
  unfold name_documents. apply Forall_fmap, Forall_true.
  intros doc. simpl. apply lookup_insert_eq.
Qed.

(** X6: naming the passages of a page keeps their number, their order and
    their text, gives every one of them the name [document_<i>] (replacing a
    name it had), and leaves its other metadata as they were. *)
Theorem name_documents_keeps_passages (i : nat) (loaded_docs : list Document) :
  page_content <$> name_documents i loaded_docs = page_content <$> loaded_docs
  ∧ Forall (λ doc, metadata doc !! "name"
                   = Some (VStr ("document_" +:+ pretty i)))
           (name_documents i loaded_docs)
  ∧ Forall2 (λ doc doc', ∀ key, key ≠ "name" →
                         metadata doc' !! key = metadata doc !! key)
            loaded_docs (name_documents i loaded_docs).
Proof.
  split; [|split; [apply name_documents_names|]]; unfold name_documents.
  - rewrite <- list_fmap_compose. by apply list_fmap_ext.
  - apply Forall2_fmap_r, Forall_Forall2_diag, Forall_true.
    intros doc key Hkey. simpl. by apply lookup_insert_ne.
Qed.

(** X7: passages of different pages never share a name: the names
    [document_<i>] and [document_<j>] differ whenever [i] and [j] do. *)
Theorem name_documents_distinct_pages (i j : nat)
    (loaded_docs loaded_docs' : list Document) (doc doc' : Document) :
  i ≠ j →
  doc ∈ name_documents i loaded_docs →
  doc' ∈ name_documents j loaded_docs' →
  metadata doc !! "name" ≠ metadata doc' !! "name".
Proof.
  intros Hij Hdoc Hdoc'.
  pose proof (name_documents_names i loaded_docs) as Hi.
  pose proof (name_documents_names j loaded_docs') as Hj.
  rewrite (proj1 (Forall_forall _ _) Hi _ Hdoc).
  rewrite (proj1 (Forall_forall _ _) Hj _ Hdoc'). intros Heq.
  apply Hij, document_name_inj. congruence.
Qed.

Lemma name_documents_distinct_pages_witness :
  metadata {| page_content := "Anyone can go barefoot.";
              metadata := <["name" := VStr "document_0"]> loader_metadata |}
    !! "name"
  ≠ metadata {| page_content := "Anyone can go barefoot.";
                metadata := <["name" := VStr "document_1"]> loader_metadata |}
    !! "name".
Proof.
  apply (name_documents_distinct_pages 0 1 [nameless_passage] [nameless_passage]).
  - discriminate.
  - apply list_elem_of_singleton. reflexivity.
  - apply list_elem_of_singleton. reflexivity.
Defined.

(** * More on context assembly: any template, any separator *)

Lemma concat_app (sep : string) (texts1 texts2 : list string) :
  texts1 ≠ [] → texts2 ≠ [] →
  String.concat sep (texts1 ++ texts2)
  = String.concat sep texts1 +:+ sep +:+ String.concat sep texts2.
Proof.
  intros Hne1 Hne2. induction texts1 as [|t [|u texts1] IH]; [done| |].
  - destruct texts2 as [|t2 texts2]; [done|]. reflexivity.
  - change (String.concat sep ((t :: u :: texts1) ++ texts2))
      with (t +:+ sep +:+ String.concat sep ((u :: texts1) ++ texts2)).
    rewrite IH by done.
    change (String.concat sep (t :: u :: texts1))
      with (t +:+ sep +:+ String.concat sep (u :: texts1)).
    by rewrite !string_app_assoc.
Qed.

Section AnyTemplate.
Variable str : value → string.
Implicit Types doc : Document.
Implicit Types docs : list Document.
Implicit Types prompt : PromptTemplate.

Lemma mapM_format_document_iff docs prompt (texts : list string) :
  mapM (λ doc, format_document str doc prompt) docs = Returned texts
  ↔ Forall2 (λ doc text, format_document str doc prompt = Returned text)
            docs texts.
Proof.
  revert texts. induction docs as [|doc docs IH]; intros texts; cbn [mapM].
  - split.
    + intros [= <-]. constructor.
    + intros ->%Forall2_nil_inv_l. reflexivity.
  - split.
    + destruct (format_document str doc prompt) as [text|e] eqn:Hdoc;
        cbn [mbind outcome_bind]; [|discriminate].
      destruct (mapM _ docs) as [texts'|e] eqn:Hdocs;
        cbn [mbind outcome_bind mret outcome_ret]; [|discriminate].
      intros [= <-]. constructor; [done|]. by apply IH.
    + intros (text & texts' & Hdoc & Hdocs & ->)%Forall2_cons_inv_l.
      rewrite Hdoc. cbn [mbind outcome_bind].
      apply IH in Hdocs. rewrite Hdocs. reflexivity.
Qed.

Lemma mapM_format_document_first_failure docs doc docs' prompt e :
  Forall (λ d, ∃ text, format_document str d prompt = Returned text) docs →
  format_document str doc prompt = Raised e →
  mapM (λ doc, format_document str doc prompt) (docs ++ doc :: docs')
  = Raised e.
Proof.
  intros Hdocs Hraise.
  induction Hdocs as [|d docs [text Hd] Hdocs IH]; cbn [app mapM].
  - by rewrite Hraise.
  - rewrite Hd. cbn [mbind outcome_bind]. by rewrite IH.
Qed.

(** X8: whatever the template and the separator, [_combine_documents]
    raises the exception of the first document that cannot be formatted;
    the passages before and after it give no partial context. *)
Theorem combine_documents_first_failure docs doc docs' prompt
    (sep : string) (e : exception) :
  Forall (λ d, ∃ text, format_document str d prompt = Returned text) docs →
  format_document str doc prompt = Raised e →
  _combine_documents str (docs ++ doc :: docs') prompt sep = Raised e.
Proof.
  intros Hdocs Hraise. unfold _combine_documents.
  by rewrite (mapM_format_document_first_failure _ _ _ _ _ Hdocs Hraise).
Qed.

Lemma combine_documents_returned docs prompt (sep out : string) :
  _combine_documents str docs prompt sep = Returned out
  ↔ ∃ texts,
      Forall2 (λ doc text, format_document str doc prompt = Returned text)
              docs texts
      ∧ out = String.concat sep texts.
Proof.
  unfold _combine_documents. split.
  - destruct (mapM _ docs) as [texts|e] eqn:Hdocs;
      cbn [mbind outcome_bind]; [|discriminate].
    intros [= <-]. exists texts. split; [|done].
    by apply mapM_format_document_iff.
  - intros (texts & Hdocs & ->). apply mapM_format_document_iff in Hdocs.
    by rewrite Hdocs.
Qed.

(** X9: whatever the template and the separator, [_combine_documents]
    returns a string exactly when every document can be formatted, and the
    string is then the documents' texts, in order, joined by the separator
    it was given. *)
Theorem combine_documents_returns_iff docs prompt (sep out : string) :
  _combine_documents str docs prompt sep = Returned out
  ↔ ∃ texts,
      Forall2 (λ doc text, format_document str doc prompt = Returned text)
              docs texts
      ∧ out = String.concat sep texts.
Proof. apply combine_documents_returned. Qed.

(** X10: contexts compose: the context of two non-empty passage lists put
    one after the other is the context of the first, the separator, and the
    context of the second. *)
Theorem combine_documents_app docs1 docs2 prompt (sep out1 out2 : string) :
  docs1 ≠ [] → docs2 ≠ [] →
  _combine_documents str docs1 prompt sep = Returned out1 →
  _combine_documents str docs2 prompt sep = Returned out2 →
  _combine_documents str (docs1 ++ docs2) prompt sep
  = Returned (out1 +:+ sep +:+ out2).
Proof.
  intros Hne1 Hne2.
  intros (texts1 & Hdocs1 & ->)%combine_documents_returned.
  intros (texts2 & Hdocs2 & ->)%combine_documents_returned.
  apply combine_documents_returned. exists (texts1 ++ texts2)%list. split.
  - by apply Forall2_app.
  - symmetry. apply concat_app.
    + intros ->. by apply Forall2_nil_inv_r in Hdocs1.
    + intros ->. by apply Forall2_nil_inv_r in Hdocs2.
Qed.
End AnyTemplate.

Lemma combine_documents_first_failure_witness :
  _combine_documents str_of_text
    ([sales_passage] ++ nameless_passage :: [barefoot_passage])
    LLM_DOCUMENT_PROMPT DOCUMENT_SEPARATOR
  = Raised (ValueError ["name"]).
Proof.
  apply (combine_documents_first_failure str_of_text).
  - repeat constructor. eexists. vm_compute. reflexivity.
  - vm_compute. reflexivity.
Defined.

Lemma combine_documents_app_witness :
  _combine_documents str_of_text ([sales_passage] ++ [barefoot_passage])
    LLM_DOCUMENT_PROMPT "; "
  = Returned (rendered str_of_text sales_passage +:+ "; "
              +:+ rendered str_of_text barefoot_passage).
Proof.
  apply (combine_documents_app str_of_text).
  - discriminate.
  - discriminate.
  - vm_compute. reflexivity.
  - vm_compute. reflexivity.
Defined.

(** * More on context assembly: the notebook's template *)

Section NotebookTemplate.
Variable str : value → string.
Hypothesis str_VStr : ∀ s, str (VStr s) = s.

(** X11: the first pipeline's passages always assemble, and this is the
    context they give.  Whatever the records hold, for passages whose
    metadata the callback wrote from their records (into dictionaries
    without an entry called page_content), [_combine_documents] returns the
    passages in order, two line feeds between them, each framed with its
    text and with the printed name of its record, or with Unknown Name when
    the record has no name. *)
Theorem combine_documents_ingested (docs : list Document)
    (records : list (gmap string value)) :
  Forall2 (λ doc record, ∃ metadata0,
             metadata0 !! "page_content" = None
             ∧ metadata doc = metadata_func record metadata0) docs records →
  _combine_documents str docs LLM_DOCUMENT_PROMPT DOCUMENT_SEPARATOR
  = Returned
      (separated (String "010"%char (String "010"%char ""))
         (zip_with (λ doc record,
                      framed match record !! "name" with
                             | Some name => str name
                             | None => "Unknown Name"
                             end
                             (page_content doc))
                   docs records)).
Proof.
  intros Hdocs.
  assert (Forall (λ doc, has_source doc = true) docs
          ∧ rendered str <$> docs
            = zip_with (λ doc record,
                          framed match record !! "name" with
                                 | Some name => str name
                                 | None => "Unknown Name"
                                 end
                                 (page_content doc))
                       docs records) as [Hsource Hrendered].
  { induction Hdocs as [|doc record docs records Hdoc Hdocs [IH1 IH2]];
      [by split|].
    destruct Hdoc as (metadata0 & Hfree & Hmeta). split.
    - constructor; [|exact IH1]. apply has_source_spec. rewrite Hmeta. split.
      + rewrite metadata_func_name. eauto.
      + rewrite metadata_func_frame; [done|].
        rewrite !not_elem_of_cons. repeat split; try done.
        apply not_elem_of_nil.
    - cbn [fmap list_fmap zip_with]. rewrite <- IH2. f_equal.
      unfold rendered, source_name.
      rewrite Hmeta, metadata_func_name. unfold get.
      destruct (record !! "name") as [name|]; simpl; [done|].
      by rewrite str_VStr. }
  rewrite (combine_documents_concat str str_VStr) by done.
  by rewrite separated_concat, Hrendered.
Qed.

(** X12: the text of a passage is not escaped.  One passage whose text
    ends the first passage's frame and opens a second one assembles to the
    very context of two passages: the context alone does not tell a source
    line the template wrote from one a passage's text brought along. *)
Theorem combine_documents_forged_source (doc1 doc2 : Document)
    (name1 name2 : string) :
  metadata doc1 !! "name" = Some (VStr name1) →
  metadata doc1 !! "page_content" = None →
  metadata doc2 !! "name" = Some (VStr name2) →
  metadata doc2 !! "page_content" = None →
  _combine_documents str
    [ {| page_content :=
           page_content doc1 +:+ LF +:+ "---" +:+ LF
             +:+ DOCUMENT_SEPARATOR
             +:+ LF +:+ "---" +:+ LF +:+ "SOURCE: " +:+ name2 +:+ LF
             +:+ page_content doc2;
         metadata := metadata doc1 |} ]
    LLM_DOCUMENT_PROMPT DOCUMENT_SEPARATOR
  = _combine_documents str [doc1; doc2] LLM_DOCUMENT_PROMPT DOCUMENT_SEPARATOR.
Proof.
  intros Hname1 Hfree1 Hname2 Hfree2.
  rewrite !(combine_documents_concat str str_VStr).
  - cbn [fmap list_fmap String.concat]. f_equal.
    rewrite (rendered_string_name str str_VStr _ name1) by done.
    rewrite (rendered_string_name str str_VStr doc1 name1) by done.
    rewrite (rendered_string_name str str_VStr doc2 name2) by done.
    unfold passage_text. cbn [page_content].
    by rewrite !string_app_assoc.
  - repeat constructor; apply has_source_spec; eauto.
  - repeat constructor. apply has_source_spec. simpl. eauto.
Qed.
End NotebookTemplate.

(** A named record and one with neither name nor date. *)
Lemma combine_documents_ingested_witness :
  _combine_documents str_of_text
    [ sales_passage;
      {| page_content := "Employees may work from home.";
         metadata := metadata_func ∅ loader_metadata |} ]
    LLM_DOCUMENT_PROMPT DOCUMENT_SEPARATOR
  = Returned
      (framed "Sales Organization Overview"
              "The sales team is organised by region."
       +:+ String "010"%char (String "010"%char "")
       +:+ framed "Unknown Name" "Employees may work from home.").
Proof.
  rewrite (combine_documents_ingested str_of_text (λ s, eq_refl)
             [ sales_passage;
               {| page_content := "Employees may work from home.";
                  metadata := metadata_func ∅ loader_metadata |} ]
             [sales_record; ∅]).
  - reflexivity.
  - repeat constructor.
    + exists loader_metadata. split; reflexivity.
    + exists loader_metadata. split; reflexivity.
Defined.

Lemma combine_documents_forged_source_witness :
  _combine_documents str_of_text
    [ {| page_content :=
           page_content sales_passage +:+ LF +:+ "---" +:+ LF
             +:+ DOCUMENT_SEPARATOR
             +:+ LF +:+ "---" +:+ LF +:+ "SOURCE: " +:+ "document_0" +:+ LF
             +:+ page_content barefoot_passage;
         metadata := metadata sales_passage |} ]
    LLM_DOCUMENT_PROMPT DOCUMENT_SEPARATOR
  = _combine_documents str_of_text [sales_passage; barefoot_passage]
      LLM_DOCUMENT_PROMPT DOCUMENT_SEPARATOR.
Proof.
  apply (combine_documents_forged_source str_of_text (λ s, eq_refl)
           sales_passage barefoot_passage "Sales Organization Overview").
  - vm_compute. reflexivity.
  - vm_compute. reflexivity.
  - vm_compute. reflexivity.
  - vm_compute. reflexivity.
Defined.

(** * The question-answering chain *)

Lemma LLM_CONTEXT_PROMPT_parsed :
  from_template LLM_CONTEXT_TEMPLATE = Returned LLM_CONTEXT_PROMPT.
Proof. vm_compute. reflexivity. Qed.

Lemma LLM_CONTEXT_PROMPT_variables :
  input_variables LLM_CONTEXT_PROMPT = ["context"; "question"].
Proof. vm_compute. reflexivity. Qed.

Section ChainFacts.
Variable str : value → string.
Hypothesis str_VStr : ∀ s, str (VStr s) = s.
Variable E : Type.
Variable of_exception : exception → E.
Variable retriever : string → attempt E (list Document).
Variable llm : string → attempt E string.

(** The prompt filled from the two variables [_context] provides. *)
Lemma format_context_prompt (context question : string) :
  format str LLM_CONTEXT_PROMPT
    {[ "context" := VStr context; "question" := VStr question ]}
  = Returned (prompt_text context question).
Proof.
  assert (LLM_CONTEXT_PROMPT
          = [ Literal ("You are an assistant for question-answering tasks. Use the following pieces of retrieved context to answer the question. If you don't know the answer, just say that you don't know. Be as verbose and educational in your response as possible. "
                         +:+ LF +:+ "    " +:+ LF +:+ "    context: ");
              Field "context";
              Literal (LF +:+ "    Question: " +:+ DQUOTE);
              Field "question";
              Literal (DQUOTE +:+ LF +:+ "    Answer:" +:+ LF +:+ "    ") ])
    as -> by (vm_compute; reflexivity).
  cbn [format].
  rewrite lookup_insert_eq.
  rewrite lookup_insert_ne by done. rewrite lookup_singleton_eq.
  cbn [mbind outcome_bind]. rewrite !str_VStr.
  rewrite !string_app_assoc, string_app_empty_r. reflexivity.
Qed.


(** X14: when the retriever returns passages that have a name in their
    metadata and no metadata entry called page_content, the chain's answer
    is the completion model's answer to the word Human, a colon and a space
    followed by the prompt whose context is the passages, each framed with
    its source name and text, two line feeds between them; an empty
    retrieval is no special case, the model is then sent the prompt with
    an empty context.  The frame and the two line feeds are written out in
    the statement. *)
Theorem chain_asks_model (question : string) (docs : list Document) :
  retriever question = Success docs →
  Forall (λ doc, has_source doc = true) docs →
  chain str E of_exception retriever llm question
  = llm ("Human: "
         +:+ prompt_text
               (separated (String "010"%char (String "010"%char ""))
                  ((λ doc, framed (source_name str doc) (page_content doc))
                   <$> docs))
               question)
  ∧ (docs = [] →
     chain str E of_exception retriever llm question
     = llm ("Human: " +:+ prompt_text "" question)).
Proof.
  intros Hfound Hdocs.
  assert (chain str E of_exception retriever llm question
          = llm ("Human: "
                 +:+ prompt_text
                       (separated (String "010"%char (String "010"%char ""))
                          ((λ doc, framed (source_name str doc) (page_content doc))
                           <$> docs))
                       question)) as Hchain.
  { unfold chain, _context. rewrite Hfound.
    rewrite (combine_documents_concat str str_VStr) by done.
    cbn [attempted]. rewrite format_context_prompt. cbn [attempted].
    by rewrite separated_concat. }
  split; [exact Hchain|]. intros ->. exact Hchain.
Qed.
End ChainFacts.


Lemma chain_asks_model_witness :
  chain str_of_text exception id sample_retriever echo_llm
    "what is the nasa sales team?"
  = Success
      ("Human: "
       +:+ prompt_text
             (separated (String "010"%char (String "010"%char ""))
                ((λ doc, framed (source_name str_of_text doc) (page_content doc))
                 <$> sample_passages))
             "what is the nasa sales team?").
Proof.
  refine (proj1 (chain_asks_model str_of_text (λ s, eq_refl) exception id
                   sample_retriever echo_llm "what is the nasa sales team?"
                   sample_passages eq_refl sample_passages_have_source)).
Defined.

Example chain_empty_retrieval :
  chain str_of_text exception id empty_retriever echo_llm
    "what is the nasa sales team?"
  = Success ("Human: " +:+ prompt_text "" "what is the nasa sales team?").
Proof. vm_compute. reflexivity. Qed.

(** * The second pipeline: scraping and loading *)

Section ScrapingFacts.
Variable get_text : nat → string → option string.
Variable load_and_split : TextSplitter → string → value → option (list Document).

Implicit Types files : gmap string value.
Implicit Types urls : list string.

(** Scraping a list of pages in two parts. *)
Lemma scrape_from_app i urls1 urls2 files :
  scrape_from get_text i (urls1 ++ urls2) files
  = match scrape_from get_text i urls1 files with
    | Completed files1 => scrape_from get_text (i + length urls1) urls2 files1
    | Interrupted files1 => Interrupted files1
    end.
Proof.
  revert i files. induction urls1 as [|url urls1 IH]; intros i files.
  - cbn [app scrape_from length]. by rewrite Nat.add_0_r.
  - cbn [app scrape_from length]. destruct (get_text i url); [|done].
    rewrite IH. by rewrite Nat.add_succ_r.
Qed.

Lemma scrape_from_completed i urls files :
  (∀ k url, urls !! k = Some url → is_Some (get_text (i + k) url)) →
  ∃ files',
    scrape_from get_text i urls files = Completed files'
    ∧ (∀ k url, urls !! k = Some url →
         ∃ text, get_text (i + k) url = Some text
                 ∧ files' !! document_file (i + k)
                   = Some (VDict [("content", VStr text)]))
    ∧ (∀ path, (∀ k, k < length urls → path ≠ document_file (i + k)) →
         files' !! path = files !! path).
Proof.
  revert i files. induction urls as [|url urls IH]; intros i files Hfetch.
  - exists files. split; [done|]. split; [|done]. intros k url' Hk. done.
  - destruct (Hfetch 0 url eq_refl) as [text Htext].
    rewrite Nat.add_0_r in Htext.
    destruct (IH (S i) (<[document_file i := VDict [("content", VStr text)]]> files))
      as (files' & Hrun & Hwritten & Hframe).
    { intros k url' Hk. rewrite Nat.add_succ_l, <- Nat.add_succ_r.
      by apply Hfetch. }
    exists files'. split; [|split].
    + cbn [scrape_from]. by rewrite Htext.
    + intros [|k] url' Hk.
      * injection Hk as <-. exists text. rewrite Nat.add_0_r. split; [done|].
        rewrite Hframe; [apply lookup_insert_eq|].
        intros k _ Heq%document_file_inj. lia.
      * rewrite <- Nat.add_succ_comm. by apply Hwritten.
    + intros path Hpath. rewrite Hframe.
      * apply lookup_insert_ne. intros <-. apply (Hpath 0); [simpl; lia|].
        by rewrite Nat.add_0_r.
      * intros k Hk. rewrite Nat.add_succ_comm. apply Hpath. simpl. lia.
Qed.

(** X15: when every request succeeds, scraping completes, the file
    [document_<k>.json] then holds the text of the [k]-th page under the
    one key [content] (no page overwrites another's file), and every other
    file is as it was. *)
Theorem scrape_writes_every_page urls files :
  (∀ k url, urls !! k = Some url → is_Some (get_text k url)) →
  ∃ files',
    scrape get_text urls files = Completed files'
    ∧ (∀ k url, urls !! k = Some url →
         ∃ text, get_text k url = Some text
                 ∧ files' !! document_file k
                   = Some (VDict [("content", VStr text)]))
    ∧ (∀ path, (∀ k, k < length urls → path ≠ document_file k) →
         files' !! path = files !! path).
Proof. intros Hfetch. by apply (scrape_from_completed 0). Qed.

(** X16: when a request raises, scraping stops there: the pages before it
    are written, and the files of that page and of the pages after it are
    as they were before the cell ran, whatever an earlier run left there. *)
Theorem scrape_interrupted urls1 url urls2 files :
  (∀ k url', urls1 !! k = Some url' → is_Some (get_text k url')) →
  get_text (length urls1) url = None →
  ∃ files',
    scrape get_text (urls1 ++ url :: urls2) files = Interrupted files'
    ∧ (∀ k url', urls1 !! k = Some url' →
         ∃ text, get_text k url' = Some text
                 ∧ files' !! document_file k
                   = Some (VDict [("content", VStr text)]))
    ∧ (∀ k, (length urls1 ≤ k)%nat →
         files' !! document_file k = files !! document_file k).
Proof.
  intros Hfetch Hraise.
  destruct (scrape_from_completed 0 urls1 files Hfetch)
    as (files' & Hrun & Hwritten & Hframe).
  exists files'. split; [|split].
  - unfold scrape. rewrite scrape_from_app, Hrun.
    cbn [scrape_from Nat.add]. by rewrite Hraise.
  - exact Hwritten.
  - intros k Hk. apply Hframe. intros k' Hk' Heq%document_file_inj.
    simpl in Heq. lia.
Qed.

Lemma load_from_pages files i (pages : list (list Document)) docs :
  (∀ k loaded, pages !! k = Some loaded →
     ∃ content, files !! document_file (i + k) = Some content
                ∧ load_and_split Barefoot.text_splitter
                    (document_file (i + k)) content = Some loaded) →
  load_from load_and_split files i (length pages) docs
  = Completed (docs ++ mjoin (imap (λ k, name_documents (i + k)) pages))%list.
Proof.
  revert i docs. induction pages as [|loaded pages IH]; intros i docs Hpages.
  - cbn. by rewrite app_nil_r.
  - destruct (Hpages 0 loaded eq_refl) as (content & Hfile & Hload).
    rewrite Nat.add_0_r in Hfile, Hload.
    cbn [length load_from]. rewrite Hfile, Hload, IH.
    + rewrite imap_cons. cbn [mjoin list_join]. rewrite Nat.add_0_r.
      rewrite <- app_assoc.
      rewrite (imap_ext ((λ k, name_documents (i + k)) ∘ S)
                 (λ k, name_documents (S i + k)) pages); [done|].
      intros k loaded' _. simpl. f_equal. lia.
    + intros k loaded' Hk. rewrite Nat.add_succ_comm. by apply Hpages.
Qed.

(** X17: the cell reads back what it wrote.  When every request succeeds
    and the loader accepts every page's file, the passages the cell ends
    with are, page after page, the loaded passages of the page named after
    its index; files an earlier run left behind play no part. *)
Theorem scrape_and_load_pages urls files (pages : list (list Document)) :
  length pages = length urls →
  (∀ k url loaded, urls !! k = Some url → pages !! k = Some loaded →
     ∃ text, get_text k url = Some text
             ∧ load_and_split Barefoot.text_splitter (document_file k)
                 (VDict [("content", VStr text)])
               = Some loaded) →
  scrape_and_load get_text load_and_split urls files
  = Some (mjoin (imap name_documents pages)).
Proof.
  intros Hlength Hpages.
  destruct (scrape_from_completed 0 urls files) as (files' & Hrun & Hwritten & _).
  { intros k url Hk. simpl.
    destruct (lookup_lt_is_Some_2 pages k) as [loaded Hloaded].
    { rewrite Hlength. by eapply lookup_lt_Some. }
    destruct (Hpages k url loaded Hk Hloaded) as (text & -> & _). eauto. }
  simpl in Hwritten.
  unfold scrape_and_load, load, scrape. rewrite Hrun, <- Hlength.
  rewrite (load_from_pages files' 0 pages []); [done|].
  intros k loaded Hloaded. simpl.
  destruct (lookup_lt_is_Some_2 urls k) as [url Hurl].
  { rewrite <- Hlength. by eapply lookup_lt_Some. }
  destruct (Hpages k url loaded Hurl Hloaded) as (text & Htext & Hload).
  destruct (Hwritten k url Hurl) as (text' & Htext' & Hfile).
  rewrite Htext in Htext'. injection Htext' as <-. eauto.
Qed.

(** Loading a range of pages in two parts. *)
Lemma load_from_add files i count1 count2 docs :
  load_from load_and_split files i (count1 + count2) docs
  = match load_from load_and_split files i count1 docs with
    | Completed docs1 => load_from load_and_split files (i + count1) count2 docs1
    | Interrupted docs1 => Interrupted docs1
    end.
Proof.
  revert i docs. induction count1 as [|count1 IH]; intros i docs.
  - cbn [Nat.add load_from]. by rewrite Nat.add_0_r.
  - cbn [Nat.add load_from]. destruct (files !! document_file i); [|done].
    destruct (load_and_split _ _ _); [|done].
    rewrite IH. by rewrite Nat.add_succ_r.
Qed.

(** X18: loading stops at the first file that is not there, with the
    passages of the pages before it: if the files of the pages below index
    [k] are there and load, and the file of page [k] is missing, the loop
    is interrupted at page [k] and [docs] then holds the named passages of
    the pages before [k], and none of a later page. *)
Theorem load_missing_file urls files k (pages : list (list Document)) :
  k < length urls →
  length pages = k →
  (∀ j loaded, pages !! j = Some loaded →
     ∃ content, files !! document_file j = Some content
                ∧ load_and_split Barefoot.text_splitter (document_file j) content
                  = Some loaded) →
  files !! document_file k = None →
  load load_and_split urls files
  = Interrupted (mjoin (imap name_documents pages)).
Proof.
  intros Hk Hlength Hpages Hmissing. unfold load.
  replace (length urls) with (k + S (length urls - S k)) by lia.
  rewrite load_from_add, <- Hlength.
  rewrite (load_from_pages files 0 pages []) by done.
  cbn [Nat.add load_from app]. by rewrite Hlength, Hmissing.
Qed.

Lemma load_from_invariant (P : Document → Prop) files i count docs :
  (∀ k content loaded,
     (i ≤ k < i + count)%nat →
     load_and_split Barefoot.text_splitter (document_file k) content
     = Some loaded →
     Forall P (name_documents k loaded)) →
  Forall P docs →
  match load_from load_and_split files i count docs with
  | Completed docs' | Interrupted docs' => Forall P docs'
  end.
Proof.
  revert i docs. induction count as [|count IH]; intros i docs Hnamed Hdocs.
  - done.
  - cbn [load_from]. destruct (files !! document_file i) as [content|]; [|done].
    destruct (load_and_split _ _ content) as [loaded|] eqn:Hload; [|done].
    apply IH.
    + intros k content' loaded' Hk. apply Hnamed. lia.
    + apply Forall_app. split; [done|]. eapply Hnamed; [lia|exact Hload].
Qed.

(** X19: whatever was scraped and however the loader splits, every
    passage the cell ends with is named after a page: its name is
    [document_<k>] for an index [k] below the number of pages. *)
Theorem scrape_and_load_names urls files docs :
  scrape_and_load get_text load_and_split urls files = Some docs →
  Forall (λ doc, ∃ k, k < length urls
                      ∧ metadata doc !! "name"
                        = Some (VStr ("document_" +:+ pretty k))) docs.
Proof.
  unfold scrape_and_load, load.
  destruct (scrape get_text urls files) as [files'|files']; [|done].
  pose proof (load_from_invariant
                (λ doc, ∃ k, k < length urls
                             ∧ metadata doc !! "name"
                               = Some (VStr ("document_" +:+ pretty k)))
                files' 0 (length urls) []) as Hinvariant.
  destruct (load_from load_and_split files' 0 (length urls) [])
    as [docs'|docs']; [|done].
  intros [= <-]. apply Hinvariant; [|constructor].
  intros k content loaded Hk _.
  eapply Forall_impl; [apply (name_documents_names k loaded)|].
  intros doc Hdoc. exists k. split; [lia|done].
Qed.
End ScrapingFacts.

Example scrape_and_load_sample :
  scrape_and_load sample_get_text sample_load_and_split urls ∅
  = Some (mjoin (imap name_documents
       [ [ {| page_content := "text of https://www.thebarefooter.com/faq";
              metadata := {[ "source" := VStr "document_0.json";
                             "seq_num" := VInt 1 ]} |} ];
         [ {| page_content := "text of https://www.thebarefooter.com/post/trail-glove-7-the-versatile-choice-for-beginners";
              metadata := {[ "source" := VStr "document_1.json";
                             "seq_num" := VInt 1 ]} |} ];
         [ {| page_content := "text of https://www.thebarefooter.com/post/guide-to-a-healthy-transition-into-barefoot-shoes";
              metadata := {[ "source" := VStr "document_2.json";
                             "seq_num" := VInt 1 ]} |} ] ])).
Proof. vm_compute. reflexivity. Qed.

Section ScrapedContext.
Variable str : value → string.
Hypothesis str_VStr : ∀ s, str (VStr s) = s.
Variable get_text : nat → string → option string.
Variable load_and_split : TextSplitter → string → value → option (list Document).

(** X20: the second pipeline's passages always assemble.  Provided the
    loader puts no entry for the text among a passage's metadata, every run
    of the cell that ends with passages ends with passages that
    [_combine_documents] accepts: the name the loop wrote is the one the
    template needs. *)
Theorem combine_documents_scraped (urls : list string)
    (files : gmap string value) (docs : list Document) :
  (∀ path content loaded,
     load_and_split Barefoot.text_splitter path content = Some loaded →
     Forall (λ doc, metadata doc !! "page_content" = None) loaded) →
  scrape_and_load get_text load_and_split urls files = Some docs →
  ∃ out, _combine_documents str docs LLM_DOCUMENT_PROMPT DOCUMENT_SEPARATOR
         = Returned out.
Proof.
  intros Hloader Hrun. eexists.
  apply (combine_documents_concat str str_VStr).
  unfold scrape_and_load, load in Hrun.
  destruct (scrape get_text urls files) as [files'|files']; [|done].
  pose proof (load_from_invariant load_and_split
                (λ doc, has_source doc = true)
                files' 0 (length urls) []) as Hinvariant.
  destruct (load_from load_and_split files' 0 (length urls) [])
    as [docs'|docs']; [|done].
  injection Hrun as <-. apply Hinvariant; [|constructor].
  intros k content loaded _ Hload.
  apply name_documents_have_source. by eapply Hloader.
Qed.
End ScrapedContext.

Lemma scrape_writes_every_page_witness :
  ∃ files',
    scrape sample_get_text urls ∅ = Completed files'
    ∧ (∀ k url, urls !! k = Some url →
         ∃ text, sample_get_text k url = Some text
                 ∧ files' !! document_file k
                   = Some (VDict [("content", VStr text)]))
    ∧ (∀ path, (∀ k, k < length urls → path ≠ document_file k) →
         files' !! path = (∅ : gmap string value) !! path).
Proof.
  apply (scrape_writes_every_page sample_get_text urls ∅).
  intros k url _. eexists. reflexivity.
Defined.

Lemma scrape_interrupted_witness :
  ∃ files',
    scrape (λ i url, match i with 1 => None | _ => Some url end)
           (["page a"] ++ "page b" :: ["page c"])
           {[ "document_2.json" := VStr "left by an earlier run" ]}
    = Interrupted files'
    ∧ (∀ k url', ["page a"] !! k = Some url' →
         ∃ text, match k with 1 => None | _ => Some url' end = Some text
                 ∧ files' !! document_file k
                   = Some (VDict [("content", VStr text)]))
    ∧ (∀ k, (length ["page a"] ≤ k)%nat →
         files' !! document_file k
         = ({[ "document_2.json" := VStr "left by an earlier run" ]}
              : gmap string value) !! document_file k).
Proof.
  apply (scrape_interrupted
           (λ i url, match i with 1 => None | _ => Some url end)
           ["page a"] "page b" ["page c"]).
  - intros [|[|k]] url' Hk; done.
  - reflexivity.
Defined.

Lemma scrape_and_load_pages_witness :
  scrape_and_load sample_get_text sample_load_and_split ["page a"; "page b"] ∅
  = Some (mjoin (imap name_documents
       [ [ {| page_content := "text of page a";
              metadata := {[ "source" := VStr "document_0.json";
                             "seq_num" := VInt 1 ]} |} ];
         [ {| page_content := "text of page b";
              metadata := {[ "source" := VStr "document_1.json";
                             "seq_num" := VInt 1 ]} |} ] ])).
Proof.
  apply (scrape_and_load_pages sample_get_text sample_load_and_split);
    [reflexivity|].
  intros [|[|k]] url loaded Hurl Hloaded; try done.
  - injection Hurl as <-. injection Hloaded as <-.
    eexists. split; reflexivity.
  - injection Hurl as <-. injection Hloaded as <-.
    eexists. split; reflexivity.
Defined.

(** The first page's file is there, the second is not: the loop stops
    with the first page's passage. *)
Lemma load_missing_file_witness :
  load sample_load_and_split urls
       {[ "document_0.json" := VDict [("content", VStr "text")] ]}
  = Interrupted
      (mjoin (imap name_documents
         [ [ {| page_content := "text";
                metadata := {[ "source" := VStr "document_0.json";
                               "seq_num" := VInt 1 ]} |} ] ])).
Proof.
  apply (load_missing_file sample_load_and_split urls _ 1).
  - simpl. lia.
  - reflexivity.
  - intros [|j] loaded Hj; [|done]. injection Hj as <-.
    eexists. split; reflexivity.
  - vm_compute. reflexivity.
Defined.

Lemma scrape_and_load_names_witness :
  Forall (λ doc, ∃ k, k < length urls
                      ∧ metadata doc !! "name"
                        = Some (VStr ("document_" +:+ pretty k)))
    (mjoin (imap name_documents
       [ [ {| page_content := "text of https://www.thebarefooter.com/faq";
              metadata := {[ "source" := VStr "document_0.json";
                             "seq_num" := VInt 1 ]} |} ];
         [ {| page_content := "text of https://www.thebarefooter.com/post/trail-glove-7-the-versatile-choice-for-beginners";
              metadata := {[ "source" := VStr "document_1.json";
                             "seq_num" := VInt 1 ]} |} ];
         [ {| page_content := "text of https://www.thebarefooter.com/post/guide-to-a-healthy-transition-into-barefoot-shoes";
              metadata := {[ "source" := VStr "document_2.json";
                             "seq_num" := VInt 1 ]} |} ] ])).
Proof.
  exact (scrape_and_load_names sample_get_text sample_load_and_split urls ∅ _
           scrape_and_load_sample).
Defined.

Lemma combine_documents_scraped_witness :
  ∃ out,
    _combine_documents str_of_text
      (mjoin (imap name_documents
         [ [ {| page_content := "text of https://www.thebarefooter.com/faq";
                metadata := {[ "source" := VStr "document_0.json";
                               "seq_num" := VInt 1 ]} |} ];
           [ {| page_content := "text of https://www.thebarefooter.com/post/trail-glove-7-the-versatile-choice-for-beginners";
                metadata := {[ "source" := VStr "document_1.json";
                               "seq_num" := VInt 1 ]} |} ];
           [ {| page_content := "text of https://www.thebarefooter.com/post/guide-to-a-healthy-transition-into-barefoot-shoes";
                metadata := {[ "source" := VStr "document_2.json";
                               "seq_num" := VInt 1 ]} |} ] ]))
      LLM_DOCUMENT_PROMPT DOCUMENT_SEPARATOR
    = Returned out.
Proof.
  apply (combine_documents_scraped str_of_text (λ s, eq_refl)
           sample_get_text sample_load_and_split urls ∅).
  - intros path content loaded Hload. unfold sample_load_and_split in Hload.
    destruct content as [| | | | |?|entries]; try done.
    destruct entries as [|[key [| | | |text| |]] [|? ?]]; try done.
    case_bool_decide; [|done].
    injection Hload as <-. repeat constructor.
  - exact scrape_and_load_sample.
Defined.
